(** * Verification of [fastmcp.prompts.prompt_manager]

    A shallow embedding of the [PromptManager] class of
    [src/fastmcp/prompts/prompt_manager.py] and the proofs of its
    specification.

    The manager is a Python object holding a dictionary from keys to
    prompts and a duplicate-handling policy.  Its methods read and write
    the dictionary, raise exceptions, write to a logger and call the
    [render] method of a stored prompt.  The embedding threads the manager
    through a small state-and-exception monad that also records the two
    kinds of outside calls (logger warnings, prompt renders) in a trace. *)

From stdpp Require Import base option list strings gmap fin_maps.

Open Scope string_scope.

(** ** Python values *)

(** The exceptions that cross the manager's boundary.  [ValueError] and
    [NotFoundError] are raised by the manager itself; [RenderError] stands
    for whatever a prompt's own render procedure raises. *)
Inductive Exception : Type :=
| ValueError (msg : string)
| NotFoundError (msg : string)
| RenderError (payload : string).

(** [key or prompt.name] on [key : str | None]: [None] and the empty
    string are falsy, every other string is truthy. *)
Definition py_or (key : option string) (default : string) : string :=
  match key with
  | Some k => if String.eqb k "" then default else k
  | None => default
  end.

(** [', '.join(args)] is [String.concat ", " args]. *)
Definition py_join (sep : string) (args : list string) : string :=
  String.concat sep args.

(** [x in args] on a tuple of strings. *)
Definition py_in (x : string) (args : list string) : bool :=
  existsb (String.eqb x) args.

(** [msg] contains [v] as a contiguous piece. *)
Definition mentions (msg v : string) : Prop :=
  ∃ pre post : string, msg = pre +:+ v +:+ post.

Section PromptManager.

(** The argument values ([Any]), the execution context and the messages
    are opaque to the manager: it only passes them on. *)
Context {Any ServerContext Message : Type}.

(** Modelled from the spec: the [Prompt] class of [fastmcp.prompts.prompt],
    which is imported by the module but declared outside it.  A prompt is
    "an immutable value consisting at minimum of a name, optional
    description, optional tags, and a render procedure".  The render
    procedure either produces a list of messages or raises. *)
Record Prompt : Type := mkPrompt {
  name : string;
  description : option string;
  tags : option (gset string);
  render : option (gmap string Any) → option ServerContext →
           Exception + list Message
}.

(** The two attributes set by [__init__]. *)
Record PromptManager : Type := mkPromptManager {
  _prompts : gmap string Prompt;
  duplicate_behavior : string
}.

(** Calls that leave the manager. *)
Inductive Event : Type :=
| LoggerWarning (msg : string)
| PromptRender (prompt : Prompt) (arguments : option (gmap string Any))
               (context : option ServerContext).

(** ** The monad of methods *)

(** What a method call leaves behind: the value returned or the exception
    raised, the manager afterwards, and the outside calls made, oldest
    first. *)
Record Outcome (A : Type) : Type := mkOutcome {
  result : Exception + A;
  self_after : PromptManager;
  trace : list Event
}.
Arguments mkOutcome {A} _ _ _.
Arguments result {A} _.
Arguments self_after {A} _.
Arguments trace {A} _.

Definition Method (A : Type) : Type := PromptManager → Outcome A.

Definition method_ret {A} (a : A) : Method A :=
  λ self, mkOutcome (inr a) self [].

Definition method_bind {A B} (f : A → Method B) (m : Method A) : Method B :=
  λ self,
    let o := m self in
    match result o with
    | inl e => mkOutcome (inl e) (self_after o) (trace o)
    | inr a =>
        let o' := f a (self_after o) in
        mkOutcome (result o') (self_after o') (trace o ++ trace o')
    end.

#[local] Instance Method_ret : MRet Method := @method_ret.
#[local] Instance Method_bind : MBind Method := @method_bind.

(** [raise e] *)
Definition raise {A} (e : Exception) : Method A :=
  λ self, mkOutcome (inl e) self [].

(** Reading [self]. *)
Definition get_self : Method PromptManager :=
  λ self, mkOutcome (inr self) self [].

(** [self._prompts[key] = prompt] *)
Definition setitem_prompts (key : string) (prompt : Prompt) : Method unit :=
  λ self,
    mkOutcome (inr tt)
      (mkPromptManager (<[key := prompt]> (_prompts self))
                       (duplicate_behavior self))
      [].

(** [logger.warning(msg)] *)
Definition logger_warning (msg : string) : Method unit :=
  λ self, mkOutcome (inr tt) self [LoggerWarning msg].

(** [await prompt.render(arguments, context=context)]: the call is
    recorded and its outcome is the prompt's own. *)
Definition call_render (prompt : Prompt)
    (arguments : option (gmap string Any))
    (context : option ServerContext) : Method (list Message) :=
  λ self,
    mkOutcome (render prompt arguments context) self
              [PromptRender prompt arguments context].

(** ** The methods of [PromptManager] *)

Section Init.

(** [DuplicateBehavior.__args__]: the tuple of the policy literals of
    [fastmcp.settings], which the module imports. *)
Variable DuplicateBehavior_args : list string.

(** [PromptManager.__init__] *)
Definition __init__ (duplicate_behavior : option string)
  : Exception + PromptManager :=
  let _prompts : gmap string Prompt := ∅ in
  let duplicate_behavior :=
    match duplicate_behavior with
    | None => "warn"
    | Some d => d
    end in
  if negb (py_in duplicate_behavior DuplicateBehavior_args) then
    inl (ValueError
           ("Invalid duplicate_behavior: " +:+ duplicate_behavior +:+ ". "
            +:+ "Must be one of: " +:+ py_join ", " DuplicateBehavior_args))
  else
    inr (mkPromptManager _prompts duplicate_behavior).

End Init.

(** [PromptManager.get_prompt] *)
Definition get_prompt (key : string) : Method (option Prompt) :=
  self ← get_self;
  mret (_prompts self !! key).

(** [PromptManager.get_prompts]: hands out the dictionary itself. *)
Definition get_prompts : Method (gmap string Prompt) :=
  self ← get_self;
  mret (_prompts self).

(** [PromptManager.add_prompt].  The test [if existing:] is on a
    [Prompt | None]; a [Prompt] instance defines neither [__bool__] nor
    [__len__], so it is truthy and only [None] takes the [else] branch. *)
Definition add_prompt (prompt : Prompt) (key : option string) : Method Prompt :=
  let key := py_or key (name prompt) in
  self ← get_self;
  match _prompts self !! key with
  | Some existing =>
      if String.eqb (duplicate_behavior self) "warn" then
        logger_warning ("Prompt already exists: " +:+ key);;
        setitem_prompts key prompt;;
        mret prompt
      else if String.eqb (duplicate_behavior self) "replace" then
        setitem_prompts key prompt;;
        mret prompt
      else if String.eqb (duplicate_behavior self) "error" then
        raise (ValueError ("Prompt already exists: " +:+ key))
      else if String.eqb (duplicate_behavior self) "ignore" then
        mret existing
      else
        mret prompt
  | None =>
      setitem_prompts key prompt;;
      mret prompt
  end.

(** [PromptManager.render_prompt] *)
Definition render_prompt (name : string)
    (arguments : option (gmap string Any))
    (context : option ServerContext) : Method (list Message) :=
  prompt ← get_prompt name;
  match prompt with
  | None => raise (NotFoundError ("Unknown prompt: " +:+ name))
  | Some prompt => call_render prompt arguments context
  end.

(** [PromptManager.has_prompt] *)
Definition has_prompt (key : string) : Method bool :=
  self ← get_self;
  mret (bool_decide (key ∈ dom (_prompts self))).

Section FromFn.

(** [Prompt.from_function], the factory of [fastmcp.prompts.prompt]: it
    builds a prompt from a callable or raises. *)
Context {Fn : Type}.
Variable from_function :
  Fn → option string → option string → option (gset string) →
  Exception + Prompt.

(** [PromptManager.add_prompt_from_fn] *)
Definition add_prompt_from_fn (fn : Fn) (name description : option string)
    (tags : option (gset string)) : Method Prompt :=
  match from_function fn name description tags with
  | inl e => raise e
  | inr prompt => add_prompt prompt None
  end.

End FromFn.

(** Whether [add_prompt] under [key] reaches an assignment
    [self._prompts[key] = prompt]: in the [else] branch, and in the [warn]
    and [replace] branches. *)
Definition add_prompt_writes (self : PromptManager) (key : string) : bool :=
  match _prompts self !! key with
  | Some _ =>
      String.eqb (duplicate_behavior self) "warn"
      || String.eqb (duplicate_behavior self) "replace"
  | None => true
  end.

(** ** Sequences of calls *)

Section Calls.

(** [Prompt.from_function] again: one factory for the whole program. *)
Context {Fn : Type}.
Variable from_function :
  Fn → option string → option string → option (gset string) →
  Exception + Prompt.

(** A call of one of the manager's methods, with its arguments. *)
Inductive Call : Type :=
| AddPrompt (prompt : Prompt) (key : option string)
| AddPromptFromFn (fn : Fn) (name description : option string)
                  (tags : option (gset string))
| GetPrompt (key : string)
| GetPrompts
| HasPrompt (key : string)
| RenderPrompt (name : string) (arguments : option (gmap string Any))
               (context : option ServerContext).

(** The manager after one call, whether the call returned or raised. *)
Definition after_call (c : Call) (self : PromptManager) : PromptManager :=
  match c with
  | AddPrompt prompt key => self_after (add_prompt prompt key self)
  | AddPromptFromFn fn name description tags =>
      self_after (add_prompt_from_fn from_function fn name description tags self)
  | GetPrompt key => self_after (get_prompt key self)
  | GetPrompts => self_after (get_prompts self)
  | HasPrompt key => self_after (has_prompt key self)
  | RenderPrompt name arguments context =>
      self_after (render_prompt name arguments context self)
  end.

(** The manager after a sequence of calls, the first call first.  The
    caller goes on after a call that raised.  The manager is reached
    through its methods only: the caller does not write to the dictionary
    that [get_prompts] hands out nor assign to the attributes, and a render
    procedure does not call back into the manager. *)
Definition after_calls (cs : list Call) (self : PromptManager)
  : PromptManager :=
  foldl (λ self c, after_call c self) self cs.

(** The calls that only read: all but the two registrations. *)
Definition is_read (c : Call) : bool :=
  match c with
  | AddPrompt _ _ | AddPromptFromFn _ _ _ _ => false
  | _ => true
  end.

(** The calls that bind no prompt under a key other than its name: all but
    [add_prompt] with an override that differs from the name. *)
Definition registers_by_name (c : Call) : bool :=
  match c with
  | AddPrompt prompt key => String.eqb (py_or key (name prompt)) (name prompt)
  | _ => true
  end.

End Calls.

(** Every prompt of the manager is bound under its own name. *)
Definition keyed_by_name (self : PromptManager) : Prop :=
  map_Forall (λ key prompt, name prompt = key) (_prompts self).

End PromptManager.

Arguments Outcome {Any ServerContext Message} A.
Arguments mkOutcome {Any ServerContext Message A} _ _ _.
Arguments result {Any ServerContext Message A} _.
Arguments self_after {Any ServerContext Message A} _.
Arguments trace {Any ServerContext Message A} _.

(** Modelled from the spec: the values of the [DuplicateBehavior] literal
    type of [fastmcp.settings], "one of [{warn, replace, error, ignore}]".
    The order of the tuple [DuplicateBehavior.__args__] is not fixed by
    this list. *)
Definition DuplicateBehavior : list string :=
  ["warn"; "replace"; "error"; "ignore"].

(** ** Sample prompts and managers

    A manager holding one prompt named [greet], a second prompt of the
    same name and a prompt with an empty name, with strings for argument
    values and messages and [unit] for the context. *)

Definition greet : @Prompt string unit string :=
  mkPrompt "greet" None None (λ _ _, inr ["Hello!"]).

Definition greet_again : @Prompt string unit string :=
  mkPrompt "greet" (Some "second version") None (λ _ _, inr ["Hi"; "there"]).

Definition anonymous : @Prompt string unit string :=
  mkPrompt "" None None (λ _ _, inr []).

Definition holding_greet (policy : string) : @PromptManager string unit string :=
  self_after (add_prompt greet None (mkPromptManager ∅ policy)).

Definition salute : @Prompt string unit string :=
  mkPrompt "salute" None None (λ _ _, inr ["Good day."]).

(** A factory in the manner of [Prompt.from_function]: the callable is
    known by its [__name__]; a lambda needs a name of its own. *)
Definition sample_from_function (fn : string) (name description : option string)
    (tags : option (gset string)) : Exception + @Prompt string unit string :=
  if String.eqb (py_or name fn) "<lambda>" then
    inl (ValueError "You must provide a name for lambda functions")
  else
    inr (mkPrompt (py_or name fn) description tags (λ _ _, inr [fn])).

(** A client's session: a second registration of [greet], a registration
    from a callable, a failed render and two reads. *)
Definition sample_calls : list (@Call string unit string string) :=
  [AddPrompt greet_again None;
   AddPromptFromFn "salute" None (Some "from a callable") None;
   RenderPrompt "ghost" None None;
   HasPrompt "greet";
   GetPrompts].

Definition sample_reads : list (@Call string unit string string) :=
  [GetPrompt "greet"; RenderPrompt "greet" None (Some tt); HasPrompt "ghost";
   GetPrompts].

(** ** Strings *)

Lemma append_assoc (a b c : string) : (a +:+ b) +:+ c = a +:+ b +:+ c.
Proof.
  induction a as [|x a IH]; [reflexivity|].
  change (String x ((a +:+ b) +:+ c) = String x (a +:+ b +:+ c)).
  by rewrite IH.
Qed.

Lemma append_empty_r (a : string) : a +:+ "" = a.
Proof.
  induction a as [|x a IH]; [reflexivity|].
  change (String x (a +:+ "") = String x a). by rewrite IH.
Qed.

Lemma mentions_refl (v : string) : mentions v v.
Proof. exists "", "". by rewrite append_empty_r. Qed.

Lemma mentions_prefix (p s v : string) : mentions s v → mentions (p +:+ s) v.
Proof.
  intros (pre & post & ->). exists (p +:+ pre), post.
  by rewrite append_assoc.
Qed.

Lemma mentions_suffix (s q v : string) : mentions s v → mentions (s +:+ q) v.
Proof.
  intros (pre & post & ->). exists pre, (post +:+ q).
  by rewrite !append_assoc.
Qed.

(** A joined tuple shows each of its members. *)
Lemma py_join_mentions (sep v : string) (args : list string) :
  v ∈ args → mentions (py_join sep args) v.
Proof.
  unfold py_join.
  induction args as [|a args IH]; intros Hin; [by apply elem_of_nil in Hin|].
  apply elem_of_cons in Hin.
  destruct args as [|b args].
  - destruct Hin as [->|Hin]; [apply mentions_refl|by apply elem_of_nil in Hin].
  - change (mentions (a +:+ sep +:+ String.concat sep (b :: args)) v).
    destruct Hin as [->|Hin].
    + apply mentions_suffix, mentions_refl.
    + apply mentions_prefix, mentions_prefix, IH, Hin.
Qed.

Lemma py_in_spec (x : string) (args : list string) :
  py_in x args = true ↔ x ∈ args.
Proof.
  unfold py_in. rewrite existsb_exists, list_elem_of_In. split.
  - intros (y & Hy & Heq). by apply String.eqb_eq in Heq as ->.
  - intros Hin. exists x. split; [done|apply String.eqb_refl].
Qed.

Lemma py_or_empty (default : string) : py_or (Some "") default = default.
Proof. reflexivity. Qed.

Lemma py_or_none (default : string) : py_or None default = default.
Proof. reflexivity. Qed.

Lemma py_or_some (k default : string) : k ≠ "" → py_or (Some k) default = k.
Proof. intros Hk. unfold py_or. by apply String.eqb_neq in Hk as ->. Qed.

Section Specification.

Context {Any ServerContext Message : Type}.
Implicit Types (self : @PromptManager Any ServerContext Message).
Implicit Types (prompt existing first second : @Prompt Any ServerContext Message).
Implicit Types (key : option string) (k other name : string).
Implicit Types (arguments : option (gmap string Any)).
Implicit Types (context : option ServerContext).

(** ** Running a method *)

Create HintDb method discriminated.
#[local] Hint Unfold add_prompt render_prompt get_prompt get_prompts has_prompt
  get_self setitem_prompts logger_warning call_render raise
  method_bind method_ret Method_bind Method_ret : method.

Ltac run_method :=
  autounfold with method; unfold mbind, mret; autounfold with method; simpl.

(** The four policy tests of [add_prompt], decided for a manager whose
    policy is known. *)
Ltac policy_known H := rewrite ?H; simpl.

(** A manager that [__init__] returns is empty and carries the policy it
    was given ([warn] for [None]), which is one of the tuple. *)
Lemma init_returns (DuplicateBehavior_args : list string)
    (given : option string) self :
  __init__ DuplicateBehavior_args given = inr self →
  _prompts self = ∅
  ∧ duplicate_behavior self = default "warn" given
  ∧ duplicate_behavior self ∈ DuplicateBehavior_args.
Proof.
  unfold __init__.
  destruct (py_in _ DuplicateBehavior_args) eqn:Hin; simpl; [|discriminate].
  intros [= <-]. simpl. apply py_in_spec in Hin. by destruct given.
Qed.

(** [add_prompt] on a key without binding, whatever the policy. *)
Lemma run_add_prompt_fresh self prompt key :
  _prompts self !! py_or key (name prompt) = None →
  add_prompt prompt key self =
    mkOutcome (inr prompt)
      (mkPromptManager (<[py_or key (name prompt) := prompt]> (_prompts self))
                       (duplicate_behavior self))
      [].
Proof. intros Hnone. run_method. by rewrite Hnone. Qed.

(** [add_prompt] on a bound key: one of five outcomes, by the policy
    string. *)
Lemma run_add_prompt_bound self prompt existing key :
  _prompts self !! py_or key (name prompt) = Some existing →
  let k := py_or key (name prompt) in
  let replaced :=
    mkPromptManager (<[k := prompt]> (_prompts self))
                    (duplicate_behavior self) in
  add_prompt prompt key self =
    if String.eqb (duplicate_behavior self) "warn" then
      mkOutcome (inr prompt) replaced
                [LoggerWarning ("Prompt already exists: " +:+ k)]
    else if String.eqb (duplicate_behavior self) "replace" then
      mkOutcome (inr prompt) replaced []
    else if String.eqb (duplicate_behavior self) "error" then
      mkOutcome (inl (ValueError ("Prompt already exists: " +:+ k))) self []
    else if String.eqb (duplicate_behavior self) "ignore" then
      mkOutcome (inr existing) self []
    else
      mkOutcome (inr prompt) self [].
Proof.
  intros Hsome. run_method. rewrite Hsome.
  repeat case_match; reflexivity.
Qed.

(** [add_prompt] writes under its own key only. *)
Lemma add_prompt_other_keys self prompt key other :
  other ≠ py_or key (name prompt) →
  _prompts (self_after (add_prompt prompt key self)) !! other
  = _prompts self !! other.
Proof.
  intros Hne.
  destruct (_prompts self !! py_or key (name prompt)) as [existing|] eqn:Hk.
  - rewrite (run_add_prompt_bound _ _ _ _ Hk).
    repeat case_match; simpl; by rewrite ?lookup_insert_ne.
  - rewrite (run_add_prompt_fresh _ _ _ Hk). simpl.
    by rewrite lookup_insert_ne.
Qed.

(** [add_prompt] never writes the policy. *)
Lemma add_prompt_policy self prompt key :
  duplicate_behavior (self_after (add_prompt prompt key self))
  = duplicate_behavior self.
Proof.
  destruct (_prompts self !! py_or key (name prompt)) as [existing|] eqn:Hk.
  - rewrite (run_add_prompt_bound _ _ _ _ Hk). by repeat case_match.
  - by rewrite (run_add_prompt_fresh _ _ _ Hk).
Qed.

(** ** The specification *)

(** C1.  Under the [error] policy, registering a second prompt under a key
    that is already bound raises the conflict error, a [ValueError] whose
    message names the key; the manager is left as it was and the first
    prompt is still the one [get_prompt] returns. *)
Theorem add_prompt_error_conflict self first second key k :
  duplicate_behavior self = "error" →
  py_or key (name second) = k →
  _prompts self !! k = Some first →
  let o := add_prompt second key self in
  result o = inl (ValueError ("Prompt already exists: " +:+ k))
  ∧ mentions ("Prompt already exists: " +:+ k) k
  ∧ self_after o = self
  ∧ trace o = []
  ∧ result (get_prompt k (self_after o)) = inr (Some first).
Proof.
  intros Hpol <- Hfirst o. subst o.
  rewrite (run_add_prompt_bound _ _ _ _ Hfirst). policy_known Hpol.
  repeat split.
  - apply mentions_prefix, mentions_refl.
  - run_method. by rewrite Hfirst.
Qed.

(** C2.  Construction succeeds with each of the four policies [warn],
    [replace], [error], [ignore] and yields an empty manager with that
    policy; with no policy it yields an empty manager with policy [warn];
    with any other string it raises the configuration error, a
    [ValueError] whose message shows each of the four valid values. *)
Theorem init_policy (DuplicateBehavior_args : list string) :
  (∀ v, v ∈ DuplicateBehavior_args ↔ v ∈ DuplicateBehavior) →
  (∀ p, p ∈ DuplicateBehavior →
        @__init__ Any ServerContext Message DuplicateBehavior_args (Some p)
        = inr (mkPromptManager ∅ p))
  ∧ @__init__ Any ServerContext Message DuplicateBehavior_args None
    = inr (mkPromptManager ∅ "warn")
  ∧ (∀ d, d ∉ DuplicateBehavior →
        let msg := "Invalid duplicate_behavior: " +:+ d +:+ ". "
                   +:+ "Must be one of: "
                   +:+ py_join ", " DuplicateBehavior_args in
        @__init__ Any ServerContext Message DuplicateBehavior_args (Some d)
        = inl (ValueError msg)
        ∧ ∀ p, p ∈ DuplicateBehavior → mentions msg p).
Proof.
  intros Hargs.
  assert (Hvalid : ∀ p, p ∈ DuplicateBehavior →
            @__init__ Any ServerContext Message DuplicateBehavior_args (Some p)
            = inr (mkPromptManager ∅ p)).
  { intros p Hp. unfold __init__.
    apply (Hargs p), py_in_spec in Hp. by rewrite Hp. }
  split; [exact Hvalid|]. split.
  - apply (Hvalid "warn"). unfold DuplicateBehavior. constructor.
  - intros d Hd. unfold __init__.
    destruct (py_in d DuplicateBehavior_args) eqn:Hin.
    { apply py_in_spec in Hin. destruct Hd. by apply (Hargs d). }
    simpl. split; [reflexivity|].
    intros p Hp. do 4 apply mentions_prefix.
    by apply py_join_mentions, Hargs.
Qed.

(** C3.  Rendering a name without binding raises [NotFoundError] with a
    message carrying the name; no render procedure is called (the trace is
    empty) and the manager is unchanged. *)
Theorem render_prompt_unknown self name arguments context :
  _prompts self !! name = None →
  let o := render_prompt name arguments context self in
  result o = inl (NotFoundError ("Unknown prompt: " +:+ name))
  ∧ mentions ("Unknown prompt: " +:+ name) name
  ∧ trace o = []
  ∧ self_after o = self.
Proof.
  intros Hnone o. subst o. run_method. rewrite Hnone. simpl.
  repeat split. apply mentions_prefix, mentions_refl.
Qed.

(** C4.  Rendering a bound name calls the render procedure of the bound
    prompt exactly once, with the arguments and the context as supplied,
    and the call's outcome is the procedure's own outcome: the messages it
    produces, as they are (or the exception it raises). *)
Theorem render_prompt_delegates self name prompt arguments context :
  _prompts self !! name = Some prompt →
  let o := render_prompt name arguments context self in
  trace o = [PromptRender prompt arguments context]
  ∧ result o = render prompt arguments context
  ∧ (∀ messages, render prompt arguments context = inr messages →
                 result o = inr messages)
  ∧ self_after o = self.
Proof.
  intros Hsome o. subst o. run_method. rewrite Hsome. simpl.
  repeat split. by intros messages ->.
Qed.

(** C5.  Under the [ignore] policy, registering a second prompt under a
    bound key returns the first prompt, inserts nothing, and [get_prompt]
    afterwards still returns the first prompt. *)
Theorem add_prompt_ignore_keeps self first second key k :
  duplicate_behavior self = "ignore" →
  py_or key (name second) = k →
  _prompts self !! k = Some first →
  let o := add_prompt second key self in
  result o = inr first
  ∧ self_after o = self
  ∧ trace o = []
  ∧ result (get_prompt k (self_after o)) = inr (Some first).
Proof.
  intros Hpol <- Hfirst o. subst o.
  rewrite (run_add_prompt_bound _ _ _ _ Hfirst). policy_known Hpol.
  repeat split. run_method. by rewrite Hfirst.
Qed.

(** C6.  Under the [warn] policy, registering a second prompt under a
    bound key logs one warning, returns the second prompt, and
    [get_prompt] afterwards returns the second prompt; under [replace] the
    same happens with nothing logged. *)
Theorem add_prompt_warn_replace self first second key k :
  py_or key (name second) = k →
  _prompts self !! k = Some first →
  let o := add_prompt second key self in
  (duplicate_behavior self = "warn" →
     trace o = [LoggerWarning ("Prompt already exists: " +:+ k)]
     ∧ result o = inr second
     ∧ result (get_prompt k (self_after o)) = inr (Some second))
  ∧ (duplicate_behavior self = "replace" →
     trace o = []
     ∧ result o = inr second
     ∧ result (get_prompt k (self_after o)) = inr (Some second)).
Proof.
  intros <- Hfirst o. subst o.
  rewrite (run_add_prompt_bound _ _ _ _ Hfirst).
  split; intros Hpol; policy_known Hpol; repeat split;
    run_method; by rewrite lookup_insert_eq.
Qed.

(** C7.  Under any policy, registering a prompt under a key without
    binding succeeds and returns that prompt; afterwards [get_prompt]
    returns it and [has_prompt] is true for the key. *)
Theorem add_prompt_fresh self prompt key k :
  py_or key (name prompt) = k →
  _prompts self !! k = None →
  let o := add_prompt prompt key self in
  result o = inr prompt
  ∧ result (get_prompt k (self_after o)) = inr (Some prompt)
  ∧ result (has_prompt k (self_after o)) = inr true.
Proof.
  intros <- Hnone o. subst o. rewrite (run_add_prompt_fresh _ _ _ Hnone).
  repeat split; run_method.
  - by rewrite lookup_insert_eq.
  - do 2 f_equal. apply bool_decide_eq_true. set_solver.
Qed.

(** C8.  [has_prompt] answers true exactly when [get_prompt] returns a
    prompt rather than [None]; both return normally, leave the manager as
    it was and call nothing outside. *)
Theorem has_prompt_iff_get_prompt self (key : string) :
  (result (has_prompt key self) = inr true
   ↔ ∃ prompt, result (get_prompt key self) = inr (Some prompt))
  ∧ (∃ b, result (has_prompt key self) = inr b)
  ∧ (∃ found, result (get_prompt key self) = inr found)
  ∧ self_after (has_prompt key self) = self
  ∧ self_after (get_prompt key self) = self
  ∧ trace (has_prompt key self) = []
  ∧ trace (get_prompt key self) = [].
Proof.
  run_method. repeat split; eauto.
  - intros Hb. injection Hb as Hb. apply bool_decide_eq_true in Hb.
    apply elem_of_dom in Hb as [prompt Hp]. exists prompt. by rewrite Hp.
  - intros [prompt Hp]. injection Hp as Hp. do 2 f_equal.
    apply bool_decide_eq_true, elem_of_dom. eauto.
Qed.

(** C9.  A call of [add_prompt], returning or raising, leaves the policy
    as it was and changes the binding of no key other than the one it
    registers under. *)
Theorem add_prompt_frame self prompt key :
  let o := add_prompt prompt key self in
  duplicate_behavior (self_after o) = duplicate_behavior self
  ∧ ∀ other, other ≠ py_or key (name prompt) →
             _prompts (self_after o) !! other = _prompts self !! other.
Proof.
  intros o. subst o. split.
  - apply add_prompt_policy.
  - intros other Hne. by apply add_prompt_other_keys.
Qed.

(** C10, as amended.  An empty override key is treated as absent: the call
    is the call without override, so the prompt's own name is the key; and
    when that name is not itself empty, the binding (or absence of one)
    under the empty key is left as it was. *)
Theorem add_prompt_empty_key self prompt :
  add_prompt prompt (Some "") self = add_prompt prompt None self
  ∧ py_or (Some "") (name prompt) = name prompt
  ∧ (name prompt ≠ "" →
     _prompts (self_after (add_prompt prompt (Some "") self)) !! ""
     = _prompts self !! "").
Proof.
  split; [reflexivity|]. split; [reflexivity|].
  intros Hname. apply add_prompt_other_keys.
  rewrite py_or_empty. congruence.
Qed.

(** ** Beyond the specification: one registration *)

Ltac policy_facts :=
  repeat match goal with
  | H : String.eqb _ _ = true |- _ => apply String.eqb_eq in H
  | H : String.eqb _ _ = false |- _ => apply String.eqb_neq in H
  end.

Lemma valid_policy_cases (policy : string) :
  policy ∈ DuplicateBehavior ↔
  policy = "warn" ∨ policy = "replace" ∨ policy = "error" ∨ policy = "ignore".
Proof.
  unfold DuplicateBehavior. rewrite !elem_of_cons, elem_of_nil. tauto.
Qed.

(** With one of the four policies, the prompt that [add_prompt] returns
    is the one bound under the key afterwards. *)
Lemma add_prompt_returned_bound self prompt key returned :
  duplicate_behavior self ∈ DuplicateBehavior →
  result (add_prompt prompt key self) = inr returned →
  _prompts (self_after (add_prompt prompt key self))
    !! py_or key (name prompt) = Some returned.
Proof.
  intros Hvalid%valid_policy_cases.
  destruct (_prompts self !! py_or key (name prompt)) as [existing|] eqn:Hk.
  - rewrite (run_add_prompt_bound _ _ _ _ Hk).
    repeat case_match; policy_facts; simpl; intros [= <-];
      rewrite ?lookup_insert_eq; try done.
    destruct Hvalid as [?|[?|[?|?]]]; congruence.
  - rewrite (run_add_prompt_fresh _ _ _ Hk). simpl. intros [= <-].
    by rewrite lookup_insert_eq.
Qed.

(** The manager after [add_prompt] is the manager before, or the manager
    before with the prompt bound under the key. *)
Lemma add_prompt_self_after self prompt key :
  self_after (add_prompt prompt key self) = self
  ∨ self_after (add_prompt prompt key self)
    = mkPromptManager
        (<[py_or key (name prompt) := prompt]> (_prompts self))
        (duplicate_behavior self).
Proof.
  destruct (_prompts self !! py_or key (name prompt)) as [existing|] eqn:Hk.
  - rewrite (run_add_prompt_bound _ _ _ _ Hk). repeat case_match; auto.
  - rewrite (run_add_prompt_fresh _ _ _ Hk). auto.
Qed.

(** After [add_prompt] the bound keys are those bound before and the key
    of the call. *)
Lemma add_prompt_dom self prompt key :
  dom (_prompts (self_after (add_prompt prompt key self)))
  = {[py_or key (name prompt)]} ∪ dom (_prompts self).
Proof.
  destruct (_prompts self !! py_or key (name prompt)) as [existing|] eqn:Hk.
  - assert (Hin : py_or key (name prompt) ∈ dom (_prompts self))
      by (apply elem_of_dom; eauto).
    apply singleton_subseteq_l, subseteq_union_1_L in Hin.
    destruct (add_prompt_self_after self prompt key) as [->| ->]; simpl;
      by rewrite ?dom_insert_L, Hin.
  - rewrite (run_add_prompt_fresh _ _ _ Hk). simpl. apply dom_insert_L.
Qed.

(** Under [error] and [ignore], [add_prompt] keeps every binding with its
    prompt. *)
Lemma add_prompt_keeps_bindings self prompt key :
  duplicate_behavior self = "error" ∨ duplicate_behavior self = "ignore" →
  _prompts self ⊆ _prompts (self_after (add_prompt prompt key self)).
Proof.
  intros Hpol.
  destruct (_prompts self !! py_or key (name prompt)) as [existing|] eqn:Hk.
  - rewrite (run_add_prompt_bound _ _ _ _ Hk).
    destruct Hpol as [-> | ->]; done.
  - rewrite (run_add_prompt_fresh _ _ _ Hk). simpl.
    by apply insert_subseteq.
Qed.

(** A registration under the prompt's own name keeps [keyed_by_name]. *)
Lemma add_prompt_keyed_by_name self prompt key :
  py_or key (name prompt) = name prompt →
  keyed_by_name self →
  keyed_by_name (self_after (add_prompt prompt key self)).
Proof.
  intros Hkey Hinv.
  destruct (add_prompt_self_after self prompt key) as [->| ->]; [done|].
  unfold keyed_by_name. simpl. apply map_Forall_insert_2; [by rewrite Hkey|].
  exact Hinv.
Qed.

(** The manager after [add_prompt], by [add_prompt_writes]. *)
Lemma add_prompt_self_after_writes self prompt key :
  self_after (add_prompt prompt key self)
  = if add_prompt_writes self (py_or key (name prompt))
    then mkPromptManager
           (<[py_or key (name prompt) := prompt]> (_prompts self))
           (duplicate_behavior self)
    else self.
Proof.
  unfold add_prompt_writes.
  destruct (_prompts self !! py_or key (name prompt)) as [existing|] eqn:Hk.
  - rewrite (run_add_prompt_bound _ _ _ _ Hk). by repeat case_match.
  - by rewrite (run_add_prompt_fresh _ _ _ Hk).
Qed.

(** X1.  [add_prompt] raises exactly when the policy is [error] and the
    key is already bound; what it raises then is the [ValueError] naming
    the key, and the manager is left as it was. *)
Theorem add_prompt_raises_iff self prompt key :
  let k := py_or key (name prompt) in
  let o := add_prompt prompt key self in
  ((∃ e, result o = inl e)
   ↔ duplicate_behavior self = "error" ∧ is_Some (_prompts self !! k))
  ∧ (∀ e, result o = inl e →
          e = ValueError ("Prompt already exists: " +:+ k)
          ∧ self_after o = self).
Proof.
  intros k o. subst k o.
  destruct (_prompts self !! py_or key (name prompt)) as [existing|] eqn:Hk.
  - rewrite (run_add_prompt_bound _ _ _ _ Hk).
    repeat case_match; policy_facts; simpl; (split; [split|]);
      try (intros [e [=]]); try (intros e [=]); try (intros [? _]);
      try congruence; eauto.
  - rewrite (run_add_prompt_fresh _ _ _ Hk). simpl. split; [split|].
    + intros [e [=]].
    + intros [_ [? [=]]].
    + intros e [=].
Qed.

(** X2.  [add_prompt] never calls a render procedure, and it logs, one
    warning naming the key, exactly when the policy is [warn] and the key
    is already bound. *)
Theorem add_prompt_trace self prompt key :
  let k := py_or key (name prompt) in
  let o := add_prompt prompt key self in
  (duplicate_behavior self = "warn" → is_Some (_prompts self !! k) →
   trace o = [LoggerWarning ("Prompt already exists: " +:+ k)])
  ∧ (duplicate_behavior self ≠ "warn" ∨ _prompts self !! k = None →
     trace o = [])
  ∧ ∀ rendered arguments context,
      PromptRender rendered arguments context ∉ trace o.
Proof.
  intros k o. subst k o.
  destruct (_prompts self !! py_or key (name prompt)) as [existing|] eqn:Hk.
  - rewrite (run_add_prompt_bound _ _ _ _ Hk).
    repeat case_match; policy_facts; simpl; repeat split;
      try congruence; try (intros [?|[=]]; congruence);
      intros ??? Hin; repeat (apply elem_of_cons in Hin as [[=]|Hin]);
      by apply elem_of_nil in Hin.
  - rewrite (run_add_prompt_fresh _ _ _ Hk). simpl. repeat split.
    + by intros _ [? [=]].
    + intros ??? Hin. by apply elem_of_nil in Hin.
Qed.


(** X4.  When the policy attribute holds a string other than the four
    (it can only get there by assignment after construction),
    [add_prompt] on a bound key returns the prompt given but stores
    nothing: the manager is unchanged and nothing is logged. *)
Theorem add_prompt_unrecognised_policy self prompt existing key :
  duplicate_behavior self ∉ DuplicateBehavior →
  _prompts self !! py_or key (name prompt) = Some existing →
  add_prompt prompt key self = mkOutcome (inr prompt) self [].
Proof.
  intros Hinvalid Hk. rewrite (run_add_prompt_bound _ _ _ _ Hk).
  repeat case_match; policy_facts; try reflexivity;
    destruct Hinvalid; apply valid_policy_cases; auto.
Qed.

(** X5.  Registering the same prompt under the same key a second time
    leaves the manager as the first registration left it, under every
    policy. *)
Theorem add_prompt_twice self prompt key :
  self_after (add_prompt prompt key (self_after (add_prompt prompt key self)))
  = self_after (add_prompt prompt key self).
Proof.
  destruct (add_prompt_self_after self prompt key) as [Hsame|Hset].
  - by rewrite !Hsame.
  - rewrite Hset.
    destruct (add_prompt_self_after
                (mkPromptManager
                   (<[py_or key (name prompt) := prompt]> (_prompts self))
                   (duplicate_behavior self))
                prompt key) as [Hsame'|Hset']; [done|].
    rewrite Hset'. simpl. by rewrite insert_insert_eq.
Qed.

(** X6.  After [add_prompt], returning or raising, the bound keys are the
    keys bound before together with the key of the call: the number of
    bindings grows by one for a new key and stays for a bound one. *)
Theorem add_prompt_key_set self prompt key :
  let k := py_or key (name prompt) in
  let o := add_prompt prompt key self in
  dom (_prompts (self_after o)) = {[k]} ∪ dom (_prompts self)
  ∧ size (_prompts (self_after o))
    = if bool_decide (k ∈ dom (_prompts self))
      then size (_prompts self) else S (size (_prompts self)).
Proof.
  intros k o. subst k o.
  destruct (_prompts self !! py_or key (name prompt)) as [existing|] eqn:Hk.
  - assert (Hin : py_or key (name prompt) ∈ dom (_prompts self))
      by (apply elem_of_dom; eauto).
    rewrite (bool_decide_eq_true_2 _ Hin).
    apply singleton_subseteq_l, subseteq_union_1_L in Hin.
    destruct (add_prompt_self_after self prompt key) as [->| ->]; simpl.
    + by rewrite Hin.
    + rewrite dom_insert_L, Hin. split; [done|].
      apply map_size_insert_Some. eauto.
  - assert (Hout : py_or key (name prompt) ∉ dom (_prompts self))
      by by apply not_elem_of_dom.
    rewrite (bool_decide_eq_false_2 _ Hout).
    rewrite (run_add_prompt_fresh _ _ _ Hk). simpl.
    split; [apply dom_insert_L|by apply map_size_insert_None].
Qed.

(** X7.  Rendering after a registration: with one of the four policies,
    the prompt that [add_prompt] returned is the prompt that
    [render_prompt] calls for the key of the registration, once, and whose
    outcome it hands back. *)
Theorem add_prompt_then_render self prompt key returned arguments context :
  duplicate_behavior self ∈ DuplicateBehavior →
  result (add_prompt prompt key self) = inr returned →
  let o := render_prompt (py_or key (name prompt)) arguments context
             (self_after (add_prompt prompt key self)) in
  trace o = [PromptRender returned arguments context]
  ∧ result o = render returned arguments context.
Proof.
  intros Hvalid Hret o. subst o.
  pose proof (add_prompt_returned_bound _ _ _ _ Hvalid Hret) as Hbound.
  remember (self_after (add_prompt prompt key self)) as after eqn:Hafter.
  clear Hafter Hret. run_method. rewrite Hbound. by simpl.
Qed.

(** X14.  A manager fresh from [__init__] holds no prompt: for every key
    [has_prompt] is false, [get_prompt] returns [None] and [render_prompt]
    raises [NotFoundError], and [get_prompts] returns the empty
    dictionary. *)
Theorem fresh_manager_is_empty (DuplicateBehavior_args : list string)
    (given : option string) self (asked : string) arguments context :
  __init__ DuplicateBehavior_args given = inr self →
  result (has_prompt asked self) = inr false
  ∧ result (get_prompt asked self) = inr None
  ∧ result (render_prompt asked arguments context self)
    = inl (NotFoundError ("Unknown prompt: " +:+ asked))
  ∧ result (get_prompts self) = inr ∅.
Proof.
  intros (Hempty & _ & _)%init_returns. run_method.
  rewrite Hempty, lookup_empty, dom_empty_L. repeat split.
Qed.

(** X15.  Two registrations under one key: under [warn] and [replace] the
    later one wins, the manager is as if only the second prompt had been
    registered; under [error] and [ignore] the earlier one wins, the
    manager is as the first registration left it. *)
Theorem same_key_registrations self first second key key' :
  py_or key (name first) = py_or key' (name second) →
  let once := self_after (add_prompt first key self) in
  let twice := self_after (add_prompt second key' once) in
  (duplicate_behavior self = "warn" ∨ duplicate_behavior self = "replace" →
   twice = self_after (add_prompt second key' self))
  ∧ (duplicate_behavior self = "error" ∨ duplicate_behavior self = "ignore" →
     twice = once).
Proof.
  intros Hkey once twice. subst once twice.
  rewrite !add_prompt_self_after_writes, <-!Hkey.
  unfold add_prompt_writes.
  split; intros [Hpol|Hpol];
    destruct (_prompts self !! py_or key (name first)) eqn:Hk;
    rewrite ?Hpol; simpl; rewrite ?lookup_insert_eq, ?Hk, ?Hpol; simpl;
    by rewrite ?insert_insert_eq.
Qed.

(** X16.  Registrations under two different keys can be made in either
    order: the manager afterwards is the same, under every policy. *)
Theorem distinct_keys_commute self first second key key' :
  py_or key (name first) ≠ py_or key' (name second) →
  self_after (add_prompt second key' (self_after (add_prompt first key self)))
  = self_after (add_prompt first key (self_after (add_prompt second key' self))).
Proof.
  intros Hne. rewrite !add_prompt_self_after_writes.
  assert (Hfirst : ∀ written : bool,
            add_prompt_writes
              (if written
               then mkPromptManager
                      (<[py_or key' (name second) := second]> (_prompts self))
                      (duplicate_behavior self)
               else self)
              (py_or key (name first))
            = add_prompt_writes self (py_or key (name first))).
  { intros []; [|done]. unfold add_prompt_writes. simpl.
    by rewrite lookup_insert_ne. }
  assert (Hsecond : ∀ written : bool,
            add_prompt_writes
              (if written
               then mkPromptManager
                      (<[py_or key (name first) := first]> (_prompts self))
                      (duplicate_behavior self)
               else self)
              (py_or key' (name second))
            = add_prompt_writes self (py_or key' (name second))).
  { intros []; [|done]. unfold add_prompt_writes. simpl.
    by rewrite lookup_insert_ne. }
  rewrite Hfirst, Hsecond.
  destruct (add_prompt_writes self (py_or key (name first))),
    (add_prompt_writes self (py_or key' (name second))); simpl; try done.
  f_equal. by apply insert_insert_ne.
Qed.

(** ** Beyond the specification: sequences of calls *)

Section Sequences.

Context {Fn : Type}.
Variable from_function :
  Fn → option string → option string → option (gset string) →
  Exception + @Prompt Any ServerContext Message.
Implicit Types (c : @Call Any ServerContext Message Fn).
Implicit Types (cs : list (@Call Any ServerContext Message Fn)).

(** A call leaves the manager as it was or as some [add_prompt] leaves it:
    a read leaves it as it was, and a call that registers by name is an
    [add_prompt] under the prompt's own name. *)
Lemma after_call_cases c self :
  after_call from_function c self = self
  ∨ is_read c = false
    ∧ ∃ prompt key,
        after_call from_function c self
        = self_after (add_prompt prompt key self)
        ∧ (registers_by_name c = true →
           py_or key (name prompt) = name prompt).
Proof.
  destruct c as [prompt key|fn fn_name description tags|key| |key
                |asked arguments context]; simpl; auto.
  - right. split; [done|]. exists prompt, key. split; [done|].
    by intros ?%String.eqb_eq.
  - unfold add_prompt_from_fn.
    destruct (from_function fn fn_name description tags) as [e|built]; auto.
    right. split; [done|]. by exists built, None.
  - left. run_method. by destruct (_prompts self !! asked).
Qed.

Lemma after_call_policy c self :
  duplicate_behavior (after_call from_function c self)
  = duplicate_behavior self.
Proof.
  destruct (after_call_cases c self) as [->|(_ & ? & ? & -> & _)]; [done|].
  apply add_prompt_policy.
Qed.

Lemma after_calls_policy cs self :
  duplicate_behavior (after_calls from_function cs self)
  = duplicate_behavior self.
Proof.
  revert self. induction cs as [|c cs IH]; intros self; [done|].
  simpl. by rewrite IH, after_call_policy.
Qed.

(** X8.  Under the [error] and the [ignore] policy a binding is for good:
    whatever calls follow, a key that is bound stays bound to the same
    prompt. *)
Theorem bindings_kept_under_error_ignore cs self k prompt :
  duplicate_behavior self = "error" ∨ duplicate_behavior self = "ignore" →
  _prompts self !! k = Some prompt →
  _prompts (after_calls from_function cs self) !! k = Some prompt.
Proof.
  revert self. induction cs as [|c cs IH]; intros self Hpol Hbound; [done|].
  simpl. apply IH.
  - by rewrite after_call_policy.
  - destruct (after_call_cases c self) as [->|(_ & ? & ? & -> & _)]; [done|].
    eapply lookup_weaken; [exact Hbound|].
    by apply add_prompt_keeps_bindings.
Qed.

(** X9.  The policy of a manager is the one it was constructed with
    ([warn] when none was given), a member of the tuple of policies,
    whatever calls were made since. *)
Theorem policy_fixed_at_construction (DuplicateBehavior_args : list string)
    (given : option string) cs self :
  __init__ DuplicateBehavior_args given = inr self →
  duplicate_behavior (after_calls from_function cs self)
  = default "warn" given
  ∧ duplicate_behavior (after_calls from_function cs self)
    ∈ DuplicateBehavior_args.
Proof.
  intros (_ & Hpol & Hin)%init_returns.
  rewrite after_calls_policy. by rewrite <-Hpol.
Qed.

(** X10.  No call unbinds a key: the keys bound before a sequence of calls
    are bound after it; and a sequence of reads ([get_prompt],
    [get_prompts], [has_prompt], [render_prompt]) leaves the manager as
    it was. *)
Theorem calls_never_unbind cs self :
  dom (_prompts self) ⊆ dom (_prompts (after_calls from_function cs self))
  ∧ (forallb is_read cs = true → after_calls from_function cs self = self).
Proof.
  revert self. induction cs as [|c cs IH]; intros self; [done|].
  simpl. destruct (IH (after_call from_function c self)) as [IHdom IHread].
  destruct (after_call_cases c self) as [Hsame|(Hwrite & ? & ? & Hadd & _)].
  - rewrite Hsame in *. split; [done|].
    intros [_ Hreads]%andb_prop. auto.
  - split; [|by rewrite Hwrite].
    etrans; [|exact IHdom]. rewrite Hadd, add_prompt_dom.
    apply union_subseteq_r.
Qed.

(** X11.  When every registration is under the prompt's own name
    ([add_prompt_from_fn], or [add_prompt] without an override that
    differs from the name), a manager whose prompts are bound under their
    names stays so: [get_prompt] returns only prompts named as the key
    asked for. *)
Theorem found_under_own_name cs self k prompt :
  keyed_by_name self →
  forallb registers_by_name cs = true →
  result (get_prompt k (after_calls from_function cs self))
  = inr (Some prompt) →
  name prompt = k.
Proof.
  intros Hinv Hcs Hget.
  assert (Hafter : keyed_by_name (after_calls from_function cs self)).
  { clear Hget. revert self Hinv.
    induction cs as [|c cs IH]; intros self Hinv; [done|].
    simpl in Hcs. apply andb_prop in Hcs as [Hc Hcs]. simpl.
    apply IH; [done|].
    destruct (after_call_cases c self) as [->|(_ & ? & ? & -> & Hname)];
      [done|].
    apply add_prompt_keyed_by_name; auto. }
  injection Hget as Hget. exact (Hafter k prompt Hget).
Qed.

(** Registrations by name of prompts with unbound, pairwise distinct
    names add exactly those prompts. *)
Lemma register_distinct (prompts : list (@Prompt Any ServerContext Message))
    self :
  NoDup (name <$> prompts) →
  (∀ prompt, prompt ∈ prompts → _prompts self !! name prompt = None) →
  _prompts (after_calls from_function
              ((λ prompt, AddPrompt prompt None) <$> prompts) self)
  = list_to_map ((λ prompt, (name prompt, prompt)) <$> prompts)
    ∪ _prompts self.
Proof.
  revert self. induction prompts as [|prompt prompts IH];
    intros self Hnodup Hfresh.
  { simpl. by rewrite (left_id_L ∅ (∪)). }
  rewrite fmap_cons in Hnodup. apply NoDup_cons in Hnodup as [Hhead Hnodup].
  assert (Hnone : _prompts self !! py_or None (name prompt) = None)
    by (apply Hfresh; left).
  rewrite !fmap_cons.
  change (after_calls from_function (AddPrompt prompt None :: ?cs) self)
    with (after_calls from_function cs
            (self_after (add_prompt prompt None self))).
  rewrite (run_add_prompt_fresh _ _ _ Hnone).
  rewrite IH; [|done|]; simpl.
  - rewrite <-insert_union_l. symmetry. apply insert_union_r.
    apply not_elem_of_list_to_map_1.
    by rewrite <-list_fmap_compose.
  - intros other Hother. rewrite lookup_insert_ne.
    + apply Hfresh. by right.
    + intros Heq. apply Hhead. rewrite Heq.
      by apply list_elem_of_fmap_2.
Qed.

(** X12.  Registering prompts of pairwise distinct names, each under its
    name, on a manager without bindings: under every policy [get_prompts]
    then lists exactly these prompts under their names, as many bindings
    as prompts, and [get_prompt] finds each one under its name. *)
Theorem distinct_registrations_listed
    (prompts : list (@Prompt Any ServerContext Message)) self :
  _prompts self = ∅ →
  NoDup (name <$> prompts) →
  let after :=
    after_calls from_function
      ((λ prompt, AddPrompt prompt None) <$> prompts) self in
  result (get_prompts after)
  = inr (list_to_map ((λ prompt, (name prompt, prompt)) <$> prompts))
  ∧ size (_prompts after) = length prompts
  ∧ ∀ prompt, prompt ∈ prompts →
              result (get_prompt (name prompt) after) = inr (Some prompt).
Proof.
  intros Hempty Hnodup after.
  assert (Hafter : _prompts after
            = list_to_map ((λ prompt, (name prompt, prompt)) <$> prompts)).
  { subst after. rewrite register_distinct; [|done|].
    - by rewrite Hempty, (right_id_L ∅ (∪)).
    - intros prompt _. by rewrite Hempty. }
  assert (Hkeys : NoDup (((λ prompt, (name prompt, prompt)) <$> prompts).*1))
    by by rewrite <-list_fmap_compose.
  run_method. rewrite Hafter. repeat split.
  - by rewrite map_size_list_to_map, length_fmap.
  - intros prompt Hin. do 2 f_equal.
    apply elem_of_list_to_map_1; [done|].
    by apply (list_elem_of_fmap_2 (λ prompt, (name prompt, prompt))).
Qed.

(** X13.  [add_prompt_from_fn]: when the factory raises, its exception is
    what the call raises, and nothing is registered or logged; when it
    builds a prompt, no key but the built prompt's name is touched, and,
    with one of the four policies, the prompt returned is the one bound
    under that name afterwards. *)
Theorem add_prompt_from_fn_registers_by_name self (fn : Fn)
    (fn_name description : option string) (tags : option (gset string)) :
  let o :=
    add_prompt_from_fn from_function fn fn_name description tags self in
  (∀ e, from_function fn fn_name description tags = inl e →
        o = mkOutcome (inl e) self [])
  ∧ (∀ built, from_function fn fn_name description tags = inr built →
       (∀ other, other ≠ name built →
                 _prompts (self_after o) !! other = _prompts self !! other)
       ∧ (∀ returned,
            duplicate_behavior self ∈ DuplicateBehavior →
            result o = inr returned →
            _prompts (self_after o) !! name built = Some returned)).
Proof.
  intros o. subst o. unfold add_prompt_from_fn. split.
  - by intros e ->.
  - intros built ->. split.
    + intros other Hne. by apply add_prompt_other_keys.
    + intros returned Hvalid Hret.
      by apply (add_prompt_returned_bound self built None).
Qed.

End Sequences.

End Specification.

(** ** The specification at work *)

Lemma add_prompt_error_conflict_witness :
  result (add_prompt greet_again None (holding_greet "error"))
  = inl (ValueError "Prompt already exists: greet")
  ∧ result (get_prompt "greet"
              (self_after (add_prompt greet_again None (holding_greet "error"))))
    = inr (Some greet).
Proof.
  pose proof (add_prompt_error_conflict (holding_greet "error")
                greet greet_again None "greet"
                eq_refl eq_refl eq_refl) as H.
  split; apply H.
Defined.

Lemma init_policy_witness :
  __init__ DuplicateBehavior (Some "ignore")
  = inr (mkPromptManager (∅ : gmap string (@Prompt string unit string)) "ignore")
  ∧ __init__ DuplicateBehavior None
    = inr (mkPromptManager (∅ : gmap string (@Prompt string unit string)) "warn")
  ∧ @__init__ string unit string DuplicateBehavior (Some "overwrite")
    = inl (ValueError ("Invalid duplicate_behavior: overwrite. "
                       +:+ "Must be one of: warn, replace, error, ignore"))
  ∧ mentions ("Invalid duplicate_behavior: overwrite. "
              +:+ "Must be one of: warn, replace, error, ignore") "replace".
Proof.
  destruct (@init_policy string unit string DuplicateBehavior
              (λ v, iff_refl _)) as (Hvalid & Hnone & Hother).
  split; [apply Hvalid; compute_done|]. split; [exact Hnone|].
  destruct (Hother "overwrite") as (Hmsg & Hshown); [compute_done|].
  split; [exact Hmsg|]. apply Hshown. compute_done.
Defined.

Lemma render_prompt_unknown_witness :
  result (render_prompt "ghost" None (Some tt) (holding_greet "warn"))
  = inl (NotFoundError "Unknown prompt: ghost")
  ∧ trace (render_prompt "ghost" None (Some tt) (holding_greet "warn")) = [].
Proof.
  pose proof (render_prompt_unknown (holding_greet "warn") "ghost"
                None (Some tt) eq_refl) as H.
  split; apply H.
Defined.

Lemma render_prompt_delegates_witness :
  trace (render_prompt "greet" (Some {["who" := "world"]}) (Some tt)
           (holding_greet "warn"))
  = [PromptRender greet (Some {["who" := "world"]}) (Some tt)]
  ∧ result (render_prompt "greet" (Some {["who" := "world"]}) (Some tt)
              (holding_greet "warn"))
    = inr ["Hello!"].
Proof.
  pose proof (render_prompt_delegates (holding_greet "warn") "greet" greet
                (Some {["who" := "world"]}) (Some tt) eq_refl) as H.
  split; apply H. reflexivity.
Defined.

Lemma add_prompt_ignore_keeps_witness :
  result (add_prompt greet_again (Some "greet") (holding_greet "ignore"))
  = inr greet
  ∧ result (get_prompt "greet"
              (self_after (add_prompt greet_again (Some "greet")
                             (holding_greet "ignore"))))
    = inr (Some greet).
Proof.
  pose proof (add_prompt_ignore_keeps (holding_greet "ignore")
                greet greet_again (Some "greet") "greet"
                eq_refl eq_refl eq_refl) as H.
  split; apply H.
Defined.

Lemma add_prompt_warn_replace_witness :
  (trace (add_prompt greet_again None (holding_greet "warn"))
   = [LoggerWarning "Prompt already exists: greet"]
   ∧ result (get_prompt "greet"
               (self_after (add_prompt greet_again None (holding_greet "warn"))))
     = inr (Some greet_again))
  ∧ (trace (add_prompt greet_again None (holding_greet "replace")) = []
     ∧ result (get_prompt "greet"
                 (self_after (add_prompt greet_again None
                                (holding_greet "replace"))))
       = inr (Some greet_again)).
Proof.
  split.
  - pose proof (proj1 (add_prompt_warn_replace (holding_greet "warn")
                         greet greet_again None "greet" eq_refl eq_refl)
                  eq_refl) as H.
    split; apply H.
  - pose proof (proj2 (add_prompt_warn_replace (holding_greet "replace")
                         greet greet_again None "greet" eq_refl eq_refl)
                  eq_refl) as H.
    split; apply H.
Defined.

Lemma add_prompt_fresh_witness :
  result (add_prompt greet (Some "salute") (holding_greet "error")) = inr greet
  ∧ result (has_prompt "salute"
              (self_after (add_prompt greet (Some "salute")
                             (holding_greet "error"))))
    = inr true.
Proof.
  pose proof (add_prompt_fresh (holding_greet "error") greet (Some "salute")
                "salute" eq_refl eq_refl) as H.
  split; apply H.
Defined.

Lemma has_prompt_iff_get_prompt_witness :
  result (has_prompt "greet" (holding_greet "warn")) = inr true
  ↔ ∃ prompt, result (get_prompt "greet" (holding_greet "warn"))
              = inr (Some prompt).
Proof. apply (has_prompt_iff_get_prompt (holding_greet "warn") "greet"). Defined.

Lemma add_prompt_frame_witness :
  _prompts (self_after (add_prompt greet_again (Some "salute")
                          (holding_greet "replace"))) !! "greet"
  = _prompts (holding_greet "replace") !! "greet".
Proof.
  apply (add_prompt_frame (holding_greet "replace") greet_again (Some "salute")).
  discriminate.
Defined.

Lemma add_prompt_empty_key_witness :
  _prompts (self_after (add_prompt greet (Some "") (mkPromptManager ∅ "warn")))
    !! ""
  = _prompts (mkPromptManager ∅ "warn") !! "".
Proof.
  apply (add_prompt_empty_key (mkPromptManager ∅ "warn") greet).
  discriminate.
Defined.

(** C10, as stated, fails for a prompt whose own name is the empty string:
    registered with the empty override on a manager with no binding under
    the empty key, it is bound under the empty key. *)
Lemma add_prompt_empty_key_counterexample :
  let self : @PromptManager string unit string := mkPromptManager ∅ "warn" in
  let o := add_prompt anonymous (Some "") self in
  result (has_prompt "" self) = inr false
  ∧ result o = inr anonymous
  ∧ _prompts (self_after o) !! "" = Some anonymous
  ∧ result (has_prompt "" (self_after o)) = inr true.
Proof. repeat split. Qed.

(** ** Beyond the specification, at work *)

Lemma add_prompt_raises_iff_witness :
  ∃ e, result (add_prompt greet_again None (holding_greet "error")) = inl e.
Proof.
  apply (proj1 (add_prompt_raises_iff (holding_greet "error")
                  greet_again None)).
  split; [reflexivity|]. exists greet. reflexivity.
Defined.

Lemma add_prompt_trace_witness :
  trace (add_prompt greet_again None (holding_greet "warn"))
  = [LoggerWarning "Prompt already exists: greet"]
  ∧ trace (add_prompt greet_again None (holding_greet "ignore")) = [].
Proof.
  split.
  - apply (add_prompt_trace (holding_greet "warn") greet_again None);
      [reflexivity|]. exists greet. reflexivity.
  - apply (add_prompt_trace (holding_greet "ignore") greet_again None).
    left. discriminate.
Defined.


Lemma add_prompt_unrecognised_policy_witness :
  add_prompt greet_again None (holding_greet "overwrite")
  = mkOutcome (inr greet_again) (holding_greet "overwrite") [].
Proof.
  apply (add_prompt_unrecognised_policy (holding_greet "overwrite")
           greet_again greet None); [compute_done|reflexivity].
Defined.

Lemma add_prompt_then_render_witness :
  trace (render_prompt "greet" None (Some tt)
           (self_after (add_prompt greet_again None (holding_greet "replace"))))
  = [PromptRender greet_again None (Some tt)]
  ∧ result (render_prompt "greet" None (Some tt)
              (self_after (add_prompt greet_again None
                             (holding_greet "replace"))))
    = inr ["Hi"; "there"].
Proof.
  apply (add_prompt_then_render (holding_greet "replace") greet_again None
           greet_again None (Some tt)); [compute_done|reflexivity].
Defined.

Lemma bindings_kept_under_error_ignore_witness :
  _prompts (after_calls sample_from_function sample_calls
              (holding_greet "error")) !! "greet"
  = Some greet.
Proof.
  apply (bindings_kept_under_error_ignore sample_from_function sample_calls
           (holding_greet "error") "greet" greet);
    [left; reflexivity|reflexivity].
Defined.

Lemma policy_fixed_at_construction_witness :
  duplicate_behavior
    (after_calls sample_from_function sample_calls
       (mkPromptManager ∅ "ignore"))
  = "ignore".
Proof.
  apply (policy_fixed_at_construction sample_from_function DuplicateBehavior
           (Some "ignore") sample_calls (mkPromptManager ∅ "ignore")).
  reflexivity.
Defined.

Lemma calls_never_unbind_witness :
  after_calls sample_from_function sample_reads (holding_greet "warn")
  = holding_greet "warn".
Proof.
  apply (calls_never_unbind sample_from_function sample_reads
           (holding_greet "warn")).
  reflexivity.
Defined.

Lemma found_under_own_name_witness : name salute = "salute".
Proof.
  apply (found_under_own_name sample_from_function
           [AddPrompt greet None; AddPrompt salute (Some "")]
           (mkPromptManager ∅ "warn") "salute" salute);
    [apply map_Forall_empty|reflexivity|reflexivity].
Defined.

Lemma distinct_registrations_listed_witness :
  result (get_prompts
            (after_calls sample_from_function
               [AddPrompt greet None; AddPrompt salute None]
               (mkPromptManager ∅ "error")))
  = inr (list_to_map [("greet", greet); ("salute", salute)])
  ∧ size (_prompts
            (after_calls sample_from_function
               [AddPrompt greet None; AddPrompt salute None]
               (mkPromptManager ∅ "error")))
    = 2.
Proof.
  pose proof (distinct_registrations_listed sample_from_function
                [greet; salute] (mkPromptManager ∅ "error") eq_refl) as H.
  split; apply H; compute_done.
Defined.

Lemma add_prompt_from_fn_registers_by_name_witness :
  add_prompt_from_fn sample_from_function "<lambda>" None None None
    (holding_greet "warn")
  = mkOutcome
      (inl (ValueError "You must provide a name for lambda functions"))
      (holding_greet "warn") []
  ∧ _prompts (self_after
                (add_prompt_from_fn sample_from_function "hello"
                   (Some "greet") None None (holding_greet "ignore")))
      !! "greet"
    = Some greet.
Proof.
  split.
  - apply (add_prompt_from_fn_registers_by_name sample_from_function
             (holding_greet "warn") "<lambda>" None None None).
    reflexivity.
  - apply (proj2 (add_prompt_from_fn_registers_by_name sample_from_function
                    (holding_greet "ignore") "hello" (Some "greet") None None)
             _ eq_refl); [compute_done|reflexivity].
Defined.

Lemma fresh_manager_is_empty_witness :
  result (render_prompt "greet" None None
            (mkPromptManager (∅ : gmap string (@Prompt string unit string))
               "warn"))
  = inl (NotFoundError "Unknown prompt: greet").
Proof.
  apply (fresh_manager_is_empty DuplicateBehavior None
           (mkPromptManager ∅ "warn") "greet" None None).
  reflexivity.
Defined.

Lemma same_key_registrations_witness :
  self_after (add_prompt greet_again (Some "greet")
                (self_after (add_prompt greet None (mkPromptManager ∅ "warn"))))
  = self_after (add_prompt greet_again (Some "greet")
                  (mkPromptManager ∅ "warn"))
  ∧ self_after (add_prompt greet_again (Some "greet")
                  (self_after (add_prompt greet None
                                 (mkPromptManager ∅ "ignore"))))
    = self_after (add_prompt greet None (mkPromptManager ∅ "ignore")).
Proof.
  split.
  - apply (same_key_registrations (mkPromptManager ∅ "warn") greet greet_again
             None (Some "greet") eq_refl).
    left. reflexivity.
  - apply (same_key_registrations (mkPromptManager ∅ "ignore") greet
             greet_again None (Some "greet") eq_refl).
    right. reflexivity.
Defined.

Lemma distinct_keys_commute_witness :
  self_after (add_prompt salute None
                (self_after (add_prompt greet_again None
                               (holding_greet "error"))))
  = self_after (add_prompt greet_again None
                  (self_after (add_prompt salute None (holding_greet "error")))).
Proof.
  apply (distinct_keys_commute (holding_greet "error") greet_again salute
           None None).
  discriminate.
Defined.
